(** * scipydirect: the Python wrapper around the DIRECT routine

    A shallow embedding of [scipydirect/__init__.py] (Python 2): the two
    message tables, the [OptimizeResult] dictionary class and [minimize],
    the function that prepares the arguments of the Fortran routine
    [direct], calls it and turns its status code into a result or an
    exception.

    Python values are a small inductive type, Python [float]s are binary64
    floats, Python [int]s are [Z], dictionaries are [gmap string], NumPy
    arrays carry their dtype, shape and row-major data.  Raising is an
    explicit [Raise] outcome, and the [print] statement appends to an
    explicit standard output. *)

From Stdlib Require Import ZArith List String.
From Stdlib Require Import Floats.PrimFloat.
From stdpp Require Import gmap strings list.

Set Warnings "-inexact-float,-register-all,-clear-no-such-hyp".
Local Open Scope Z_scope.

(** ** Python values, exceptions and outcomes *)

(** NumPy element types used by the module. *)
Inductive dtype := float64 | int32 | uint8.

(** A NumPy array: element type, shape, and the elements in row-major
    order.  Only [float64] arrays carry elements in this module; the
    [int32] and [uint8] arrays it creates are empty. *)
Record ndarray := mk_ndarray {
  arr_dtype : dtype;
  shape : list nat;
  data : list float
}.

Inductive pyval :=
  | PyNone
  | PyInt (z : Z)
  | PyFloat (f : float)
  | PyStr (s : string)
  | PyTuple (vs : list pyval)
  | PyArray (a : ndarray)
  (** an attribute that ordinary lookup finds on the class of the object
      (a [dict] method, or a special attribute), identified by its name *)
  | PyBuiltin (name : string).

Inductive pyexc :=
  | Exception (msg : string)
  | IndexError
  | KeyError (key : string)
  | AttributeError (name : string)
  | ValueError
  | TypeError.

(** The outcome of evaluating Python code: a value, or a raised exception. *)
Inductive result (A : Type) :=
  | Return (a : A)
  | Raise (e : pyexc).
Arguments Return {A} a.
Arguments Raise {A} e.

#[global] Instance result_ret : MRet result := fun A a => Return a.
#[global] Instance result_bind : MBind result := fun A B k r =>
  match r with
  | Return a => k a
  | Raise e => Raise e
  end.

(** A run of a function that may print: what it wrote on standard output
    (the objects printed, in order) and how it ended. *)
Record run (A : Type) := mk_run {
  stdout : list pyval;
  outcome : result A
}.
Arguments mk_run {A} stdout outcome.
Arguments stdout {A} r.
Arguments outcome {A} r.

(** ** Tuples and their indexing *)

(** [t[i]] for a tuple [t]: a negative index counts from the end, and an
    index out of range raises [IndexError]. *)
Definition tuple_getitem {A} (t : list A) (i : Z) : result A :=
  let j := if i <? 0 then Z.of_nat (length t) + i else i in
  if j <? 0 then Raise IndexError
  else match t !! Z.to_nat j with
       | Some a => Return a
       | None => Raise IndexError
       end.

(** ** The message tables (lines 37-52) *)

(** Python joins adjacent string literals: the fifth and sixth lines of
    the source tuple have no comma between them and form one element. *)
Definition ERROR_MESSAGES : list string := [
  "Maximum number of levels has been reached.";
  "An error occured while the function was sampled";
  "There was an error in the creation of the sample points";
  "Initialization failed";
  "maxf is too large"
  +:+ "u[i] < l[i] for some i"
]%string.

Definition SUCCESS_MESSAGES : list string := [
  "Number of function evaluations done is larger then maxf";
  "Number of iterations is equal to maxT";
  "The best function value found is within fglper of the (known) global optimum";
  "The volume of the hyperrectangle with best function value found is below volper";
  "The volume of the hyperrectangle with best function value found is smaller then volper"
]%string.

(** [needle in haystack] on strings. *)
Fixpoint contains (needle haystack : string) : bool :=
  String.prefix needle haystack ||
  match haystack with
  | EmptyString => false
  | String _ rest => contains needle rest
  end.

(** ** The part of NumPy the module uses *)

(** A shape argument: [None], one integer, or a sequence of integers. *)
Inductive shape_arg :=
  | ShapeNone
  | ShapeInt (n : Z)
  | ShapeSeq (ns : list Z).

Definition shape_dims (s : shape_arg) : list Z :=
  match s with
  | ShapeNone => []
  | ShapeInt n => [n]
  | ShapeSeq ns => ns
  end.

(** The largest array index and byte count of a 64-bit platform,
    [2^63 - 1], and the bytes that one element takes. *)
Definition NPY_MAX_INTP : Z := 9223372036854775807.

Definition itemsize (dt : dtype) : Z :=
  match dt with
  | float64 => 8
  | int32 => 4
  | uint8 => 1
  end.

(** The bytes that an array of these dimensions needs; a dimension 0 is
    left out of the product, as NumPy leaves it out of its size check. *)
Definition nbytes (dt : dtype) (dims : list Z) : Z :=
  foldr (fun n acc => if n =? 0 then acc else n * acc) (itemsize dt) dims.

(** [np.zeros] and [np.ones]: an array of the given shape filled with one
    value.  A negative dimension raises [ValueError], and so does a shape
    whose byte count exceeds [NPY_MAX_INTP] (a dimension, or an array, too
    big); the shape [None] is the empty shape, a 0-dimensional array of
    one element.  Running out of memory for a shape within these limits
    is not part of the model. *)
Definition np_full (fill : float) (s : shape_arg) (dt : dtype) : result ndarray :=
  let dims := shape_dims s in
  if existsb (fun n => n <? 0) dims then Raise ValueError
  else if NPY_MAX_INTP <? nbytes dt dims then Raise ValueError
  else
    let sh := map Z.to_nat dims in
    Return (mk_ndarray dt sh (repeat fill (foldr Nat.mul 1%nat sh))).

Definition np_zeros := np_full 0%float.
Definition np_ones := np_full 1%float.

(** [np.asarray] on a Python sequence of pairs of floats: the empty
    sequence gives a one-dimensional array of length 0, a sequence of [n]
    pairs, [n > 0], the [n] by 2 array of its rows.  The element type is
    inferred from the entries, and the entries are floats here: a sequence
    that holds Python ints (which gives an integer array) is outside the
    inputs this function is defined on. *)
Definition np_asarray (pairs : list (float * float)) : ndarray :=
  match pairs with
  | [] => mk_ndarray float64 [0%nat] []
  | _ => mk_ndarray float64 [length pairs; 2%nat]
           (concat (map (fun p => [p.1; p.2]) pairs))
  end.

(** The first [n] consecutive blocks of [w] elements. *)
Fixpoint blocks {A} (n w : nat) (xs : list A) : list (list A) :=
  match n with
  | O => []
  | S n' => take w xs :: blocks n' w (drop w xs)
  end.

(** [a[:, k]] for a column index [k] that is not negative: the array
    needs two dimensions at least ([IndexError] otherwise) and [k] must be
    less than the second one; the result drops the second dimension. *)
Definition take_column (a : ndarray) (k : nat) : result ndarray :=
  match shape a with
  | n :: m :: rest =>
      if (k <? m)%nat then
        let blk := foldr Nat.mul 1%nat rest in
        Return (mk_ndarray (arr_dtype a) (n :: rest)
                  (concat (map (fun row => take blk (drop (k * blk) row))
                               (blocks n (m * blk) (data a)))))
      else Raise IndexError
  | _ => Raise IndexError
  end.

(** ** The string operations [__repr__] uses *)

(** A string of [n] spaces. *)
Fixpoint spaces (n : nat) : string :=
  match n with
  | O => EmptyString
  | S n' => String (Ascii.ascii_of_nat 32) (spaces n')
  end.

(** [s.rjust(width)]: [s] padded with spaces on the left up to [width];
    a string that is already that long is returned as it is. *)
Definition rjust (s : string) (width : nat) : string :=
  spaces (width - String.length s) +:+ s.

(** The line feed, and [sep.join(strings)]. *)
Definition newline : string := String (Ascii.ascii_of_nat 10) EmptyString.

Definition str_join (sep : string) (strings : list string) : string :=
  String.concat sep strings.

(** [max(xs)] on a list of lengths: the empty list raises [ValueError]. *)
Definition py_max (xs : list nat) : result nat :=
  match xs with
  | [] => Raise ValueError
  | x :: rest => Return (foldl Nat.max x rest)
  end.

(** ** OptimizeResult (lines 56-104) *)

(** [dict] item access, assignment and deletion, on string keys. *)
Definition dict_getitem (d : gmap string pyval) (key : string) : result pyval :=
  match d !! key with
  | Some v => Return v
  | None => Raise (KeyError key)
  end.

Definition dict_setitem (d : gmap string pyval) (key : string) (v : pyval)
  : gmap string pyval :=
  <[key := v]> d.

Definition dict_delitem (d : gmap string pyval) (key : string)
  : result (gmap string pyval) :=
  match d !! key with
  | Some _ => Return (delete key d)
  | None => Raise (KeyError key)
  end.

(** The names that ordinary attribute lookup resolves on an instance of a
    [dict] subclass, before its [__getattr__] is consulted: the attributes
    of [dict] (and of [object]) in Python 2.7, and those that the class
    statement itself adds. *)
Definition dict_attributes : list string := [
  "__class__"; "__cmp__"; "__contains__"; "__delattr__"; "__delitem__";
  "__doc__"; "__eq__"; "__format__"; "__ge__"; "__getattribute__";
  "__getitem__"; "__gt__"; "__hash__"; "__init__"; "__iter__"; "__le__";
  "__len__"; "__lt__"; "__ne__"; "__new__"; "__reduce__"; "__reduce_ex__";
  "__repr__"; "__setattr__"; "__setitem__"; "__sizeof__"; "__str__";
  "__subclasshook__"; "clear"; "copy"; "fromkeys"; "get"; "has_key";
  "items"; "iteritems"; "iterkeys"; "itervalues"; "keys"; "pop";
  "popitem"; "setdefault"; "update"; "values"; "viewitems"; "viewkeys";
  "viewvalues"
]%string.

Module OptimizeResult.

(** An [OptimizeResult] is a [dict]; its instance [__dict__] stays empty,
    since [__setattr__] never writes to it. *)
Abbreviation t := (gmap string pyval).

(** [OptimizeResult(k1=v1, ..., kn=vn)]: the [dict] constructor. *)
Definition new (kwargs : list (string * pyval)) : t :=
  foldl (fun d kv => dict_setitem d kv.1 kv.2) ∅ kwargs.

(** Lines 89-93: item access, with [KeyError] turned into
    [AttributeError]. *)
Definition __getattr__ (self : t) (name : string) : result pyval :=
  match dict_getitem self name with
  | Return v => Return v
  | Raise (KeyError _) => Raise (AttributeError name)
  | Raise e => Raise e
  end.

(** Lines 95-96. *)
Definition __setattr__ : t -> string -> pyval -> t := dict_setitem.
Definition __delattr__ : t -> string -> result t := dict_delitem.

Definition class_attributes : list string :=
  ["__getattr__"; "__module__"; "__dict__"; "__weakref__"]%string
  ++ dict_attributes.

(** The attribute read [r.name]: Python first looks the name up the
    ordinary way and calls [__getattr__] only when that finds nothing. *)
Definition getattr (r : t) (name : string) : result pyval :=
  if bool_decide (name ∈ class_attributes) then Return (PyBuiltin name)
  else __getattr__ r name.

(** The assignment [r.name = v] and the deletion [del r.name] always go
    through [__setattr__] and [__delattr__]. *)
Definition setattr (r : t) (name : string) (v : pyval) : t :=
  __setattr__ r name v.

Definition delattr (r : t) (name : string) : result t :=
  __delattr__ r name.

(** Lines 98-104.  The order in which a [dict] lists its entries is not
    fixed by the language: [items] is the order of [self.items()], which
    [self.keys()] follows too, and [repr_value] is the builtin [repr] on
    the stored values. *)
Definition repr_line (repr_value : pyval -> string) (m : nat)
    (kv : string * pyval) : string :=
  rjust kv.1 m +:+ ": " +:+ repr_value kv.2.

Definition __repr__ (items : t -> list (string * pyval))
    (repr_value : pyval -> string) (self : t) : result string :=
  let keys := (items self).*1 in
  match keys with
  | _ :: _ =>
      longest ← py_max (map String.length keys);
      let m := (longest + 1)%nat in
      mret (str_join newline (map (repr_line repr_value m) (items self)))
  | [] => mret ("OptimizeResult" +:+ "()")
  end.

End OptimizeResult.

(** ** minimize (lines 106-254) *)

(** The user's objective, called with positional arguments. *)
Definition objective := list pyval -> result pyval.

(** The callback that [direct] receives: eight positional arguments. *)
Definition callback :=
  pyval -> pyval -> pyval -> pyval -> pyval -> pyval -> pyval -> pyval ->
  result pyval.

(** The arguments of a call of [minimize].  [bounds] and [nvar] are [None]
    in Python when omitted; every other keyword is [None] here when the
    caller leaves it out, and then takes the default of the signature. *)
Module Kw.
Record t := mk {
  bounds : option (list (float * float));
  nvar : option Z;
  args : list pyval;
  disp : option bool;
  eps : option float;
  maxf : option Z;
  maxT : option Z;
  algmethod : option Z;
  fglobal : option float;
  fglper : option float;
  volper : option float;
  sigmaper : option float;
  logfilename : option string
}.
End Kw.

(** The positional arguments of the call of [direct] (lines 232-248). *)
Module DirectArgs.
Record t := mk {
  fcn : callback;
  eps : float;
  maxf : Z;
  maxT : Z;
  l : ndarray;
  u : ndarray;
  algmethod : Z;
  logfilename : string;
  fglobal : float;
  fglper : float;
  volper : float;
  sigmaper : float;
  iidata : ndarray;
  ddata : ndarray;
  cdata : ndarray
}.
End DirectArgs.

(** Lines 214-219: the wrapper handed to [direct].  It returns the pair of
    whatever [func(x, *args)] returns and the constant 0. *)
Definition _objective_wrap (func : objective) (args : list pyval)
    (x iidata ddata cdata n iisize idsize icsize : pyval) : result pyval :=
  v ← func (x :: args);
  mret (PyTuple [v; PyInt 0]).

(** Lines 206-212: the bound vectors. *)
Definition bound_vectors (bounds : option (list (float * float)))
    (nvar : option Z) : result (ndarray * ndarray) :=
  match bounds with
  | None =>
      let shp := match nvar with None => ShapeNone | Some n => ShapeInt n end in
      l ← np_zeros shp float64;
      u ← np_ones shp float64;
      mret (l, u)
  | Some bounds =>
      let bounds := np_asarray bounds in
      l ← take_column bounds 0;
      u ← take_column bounds 1;
      mret (l, u)
  end.

(** Lines 206-248: everything [minimize] does before [direct] runs, giving
    the arguments [direct] is called with. *)
Definition direct_call (func : objective) (kw : Kw.t) : result DirectArgs.t :=
  '(l, u) ← bound_vectors (Kw.bounds kw) (Kw.nvar kw);
  iidata ← np_ones (ShapeInt 0) int32;
  ddata ← np_ones (ShapeInt 0) float64;
  cdata ← np_ones (ShapeSeq [0; 40]) uint8;
  mret (DirectArgs.mk
          (_objective_wrap func (Kw.args kw))
          (default 1e-4%float (Kw.eps kw))
          (default 20000 (Kw.maxf kw))
          (default 6000 (Kw.maxT kw))
          l
          u
          (default 0 (Kw.algmethod kw))
          (default "DIRresults.txt"%string (Kw.logfilename kw))
          (default (-1e100)%float (Kw.fglobal kw))
          (default 0.01%float (Kw.fglper kw))
          (default (-1.0)%float (Kw.volper kw))
          (default (-1.0)%float (Kw.sigmaper kw))
          iidata
          ddata
          cdata).

(** The shape argument that [nvar] is in [np.zeros(nvar)]. *)
Definition nvar_shape (nvar : option Z) : shape_arg :=
  match nvar with
  | None => ShapeNone
  | Some n => ShapeInt n
  end.

Section Minimize.

(** The Fortran routine behind [from .direct import direct]: given its
    arguments it returns the triple [(x, fun, ierror)], or raises. *)
Variable direct : DirectArgs.t -> result (ndarray * float * Z).

(** Lines 250-254: what [minimize] makes of the triple. *)
Definition finish (x : ndarray) (fun_ : float) (ierror : Z)
  : run OptimizeResult.t :=
  if ierror <? 0 then
    mk_run [PyInt ierror]
      (msg ← tuple_getitem ERROR_MESSAGES (Z.abs ierror - 1);
       Raise (Exception msg))
  else
    mk_run []
      (Return (OptimizeResult.new
                 [("x", PyArray x); ("fun", PyFloat fun_);
                  ("status", PyInt ierror)]%string)).

Definition minimize (func : objective) (kw : Kw.t) : run OptimizeResult.t :=
  match direct_call func kw with
  | Raise e => mk_run [] (Raise e)
  | Return a =>
      match direct a with
      | Raise e => mk_run [] (Raise e)
      | Return (x, fun_, ierror) => finish x fun_ ierror
      end
  end.

End Minimize.

(** ** Concrete inputs used in the examples below *)

(** A stand-in for the Fortran routine that evaluates nothing and reports
    the given point, value and status. *)
Definition direct_returning (x : ndarray) (fun_ : float) (ierror : Z)
  : DirectArgs.t -> result (ndarray * float * Z) :=
  fun _ => Return (x, fun_, ierror).

(** A call that passes [bounds] and leaves every keyword at its default. *)
Definition call_with_bounds (bounds : list (float * float)) : Kw.t :=
  Kw.mk (Some bounds) None [] None None None None None None None None None None.

(** A call that passes [nvar] only. *)
Definition call_with_nvar (nvar : Z) : Kw.t :=
  Kw.mk None (Some nvar) [] None None None None None None None None None None.

(** An objective that ignores its arguments and returns the float 2.5. *)
Definition constant_objective : objective :=
  fun _ => Return (PyFloat 2.5%float).

(** An objective written as the docstring of [minimize] asks: it returns
    the pair of a value and the flag 1, "not defined at this point". *)
Definition infeasible_objective : objective :=
  fun _ => Return (PyTuple [PyFloat 2.5%float; PyInt 1]).

Definition unit_interval : list (float * float) := [(0%float, 1%float)].

Definition origin : ndarray := mk_ndarray float64 [1%nat] [0%float].

(** The five items that the interface description lists for a result,
    under the names the docstrings give them. *)
Definition carries_all_documented (r : OptimizeResult.t) : Prop :=
  is_Some (r !! "x") /\ is_Some (r !! "fun") /\ is_Some (r !! "status") /\
  is_Some (r !! "message") /\ is_Some (r !! "nfev").

(** A result in which the caller stored an entry under the name [keys]. *)
Definition result_with_keys_entry : OptimizeResult.t :=
  OptimizeResult.new [("keys", PyInt 1)]%string.

(** The row of the bounds array that a pair gives. *)
Definition pair_row (p : float * float) : list float := [p.1; p.2].

(** A call that passes every keyword. *)
Definition call_with_everything : Kw.t :=
  Kw.mk (Some unit_interval) (Some 3) [PyInt 7] (Some true)
    (Some 0.5%float) (Some 100) (Some 10) (Some 1) (Some 0%float)
    (Some 1%float) (Some 2%float) (Some 3%float) (Some "log.txt"%string).

(** A small [repr] for the examples: strings in quotes, [None], and a
    placeholder for the rest. *)
Definition sample_repr (v : pyval) : string :=
  match v with
  | PyNone => "None"
  | PyStr s => "'" +:+ s +:+ "'"
  | _ => "<object>"
  end.

(** The order of the entries that [gmap] itself gives. *)
Definition gmap_items (r : OptimizeResult.t) : list (string * pyval) :=
  map_to_list r.

Definition sample_result : OptimizeResult.t :=
  OptimizeResult.new [("x", PyNone); ("status", PyStr "ok")]%string.

(** ** Facts about the model *)

Lemma new3_lookup (k1 k2 k3 : string) (v1 v2 v3 : pyval) (k : string) :
  OptimizeResult.new [(k1, v1); (k2, v2); (k3, v3)] !! k
  = if decide (k3 = k) then Some v3
    else if decide (k2 = k) then Some v2
    else if decide (k1 = k) then Some v1
    else None.
Proof.
  unfold OptimizeResult.new, dict_setitem; simpl.
  rewrite !lookup_insert, lookup_empty.
  repeat (destruct (decide _)); reflexivity.
Qed.

Lemma new3_dom (k1 k2 k3 : string) (v1 v2 v3 : pyval) :
  dom (OptimizeResult.new [(k1, v1); (k2, v2); (k3, v3)])
  = ({[k1; k2; k3]} : gset string).
Proof.
  unfold OptimizeResult.new, dict_setitem; simpl.
  rewrite !dom_insert_L, dom_empty_L. set_solver.
Qed.

(** What [minimize] does once [direct] has returned. *)
Lemma minimize_after_direct direct func kw a x fun_ ierror :
  direct_call func kw = Return a ->
  direct a = Return (x, fun_, ierror) ->
  minimize direct func kw = finish x fun_ ierror.
Proof. intros Ha Hd. unfold minimize. rewrite Ha, Hd. reflexivity. Qed.

(** A returned result is the three-entry dictionary of a non-negative
    status. *)
Lemma minimize_returns_inv direct func kw r :
  outcome (minimize direct func kw) = Return r ->
  exists x fun_ ierror,
    0 <= ierror /\
    r = OptimizeResult.new
          [("x", PyArray x); ("fun", PyFloat fun_); ("status", PyInt ierror)]%string.
Proof.
  unfold minimize.
  destruct (direct_call func kw) as [a|e]; simpl; [|discriminate].
  destruct (direct a) as [[[x f] ierror]|e]; simpl; [|discriminate].
  unfold finish. destruct (Z.ltb_spec ierror 0) as [Hneg|Hpos]; simpl.
  - destruct (tuple_getitem ERROR_MESSAGES (Z.abs ierror - 1)); discriminate.
  - intros [= <-]. exists x, f, ierror. auto.
Qed.

(** ** Status codes (C1) *)

(** C1.  Whenever [direct] returns the status [ierror]: if [ierror] is
    negative, [minimize] raises an exception; if it is not, [minimize]
    returns a result whose [status] entry is [ierror]. *)
Theorem minimize_status direct func kw a x fun_ ierror :
  direct_call func kw = Return a ->
  direct a = Return (x, fun_, ierror) ->
  (ierror < 0 -> exists e, outcome (minimize direct func kw) = Raise e) /\
  (0 <= ierror ->
   exists r, outcome (minimize direct func kw) = Return r /\
             dict_getitem r "status" = Return (PyInt ierror)).
Proof.
  intros Ha Hd. rewrite (minimize_after_direct _ _ _ _ _ _ _ Ha Hd).
  unfold finish. split; intros H.
  - apply Z.ltb_lt in H. rewrite H. simpl.
    destruct (tuple_getitem ERROR_MESSAGES (Z.abs ierror - 1)); simpl; eauto.
  - apply Z.ltb_ge in H. rewrite H. simpl. eexists; split; [reflexivity|].
    unfold dict_getitem. rewrite new3_lookup. reflexivity.
Qed.

Lemma minimize_status_witness :
  (exists e, outcome (minimize (direct_returning origin 0%float (-3))
                        constant_objective (call_with_bounds unit_interval))
             = Raise e) /\
  (exists r, outcome (minimize (direct_returning origin 0%float 1)
                        constant_objective (call_with_bounds unit_interval))
             = Return r /\
             dict_getitem r "status" = Return (PyInt 1)).
Proof.
  split.
  - apply (proj1 (minimize_status (direct_returning origin 0%float (-3))
                    constant_objective (call_with_bounds unit_interval)
                    _ origin 0%float (-3) eq_refl eq_refl)).
    reflexivity.
  - apply (proj2 (minimize_status (direct_returning origin 0%float 1)
                    constant_objective (call_with_bounds unit_interval)
                    _ origin 0%float 1 eq_refl eq_refl)).
    discriminate.
Defined.

(** ** What a returned result holds (C2, C10) *)

(** C2, as stated, fails: with [direct] ending on status 1 (evaluation
    budget), the result of [minimize] has three entries, none of them a
    message or an evaluation count. *)
Lemma minimize_result_lacks_message_and_count :
  exists r,
    outcome (minimize (direct_returning origin 2.5%float 1)
               constant_objective (call_with_bounds unit_interval))
    = Return r /\
    size r = 3%nat /\
    r !! "message" = None /\
    r !! "nfev" = None /\
    ~ carries_all_documented r.
Proof.
  eexists. split; [reflexivity|].
  split; [|split; [|split]].
  - vm_compute. reflexivity.
  - rewrite new3_lookup. reflexivity.
  - rewrite new3_lookup. reflexivity.
  - intros (_ & _ & _ & _ & [v Hv]). rewrite new3_lookup in Hv. discriminate.
Qed.

(** C2, amended.  Whenever [direct] ends on a success status (not
    negative), the result of [minimize] holds the point, the value and the
    status that [direct] returned, and no evaluation count. *)
Theorem minimize_result_fields direct func kw a x fun_ ierror :
  direct_call func kw = Return a ->
  direct a = Return (x, fun_, ierror) ->
  0 <= ierror ->
  exists r,
    outcome (minimize direct func kw) = Return r /\
    r !! "x" = Some (PyArray x) /\
    r !! "fun" = Some (PyFloat fun_) /\
    r !! "status" = Some (PyInt ierror) /\
    r !! "nfev" = None.
Proof.
  intros Ha Hd H. rewrite (minimize_after_direct _ _ _ _ _ _ _ Ha Hd).
  unfold finish. apply Z.ltb_ge in H. rewrite H. simpl.
  eexists; split; [reflexivity|].
  rewrite !new3_lookup. repeat split; reflexivity.
Qed.

Lemma minimize_result_fields_witness :
  exists r,
    outcome (minimize (direct_returning origin 2.5%float 1)
               constant_objective (call_with_bounds unit_interval))
    = Return r /\
    r !! "x" = Some (PyArray origin) /\
    r !! "fun" = Some (PyFloat 2.5%float) /\
    r !! "status" = Some (PyInt 1) /\
    r !! "nfev" = None.
Proof.
  apply (minimize_result_fields (direct_returning origin 2.5%float 1)
           constant_objective (call_with_bounds unit_interval)
           _ origin 2.5%float 1 eq_refl eq_refl).
  discriminate.
Defined.

(** C10.  A result returned by [minimize] has exactly the keys [x], [fun]
    and [status]; reading the attributes [success], [message], [nit] or
    [nfev] on it raises [AttributeError]. *)
Theorem minimize_result_keys direct func kw r :
  outcome (minimize direct func kw) = Return r ->
  dom r = ({["x"; "fun"; "status"]} : gset string) /\
  OptimizeResult.getattr r "success" = Raise (AttributeError "success") /\
  OptimizeResult.getattr r "message" = Raise (AttributeError "message") /\
  OptimizeResult.getattr r "nit" = Raise (AttributeError "nit") /\
  OptimizeResult.getattr r "nfev" = Raise (AttributeError "nfev").
Proof.
  intros H. apply minimize_returns_inv in H as (x & f & ierror & _ & ->).
  split; [apply new3_dom|].
  unfold OptimizeResult.getattr, OptimizeResult.__getattr__, dict_getitem; simpl.
  rewrite !new3_lookup. repeat split; reflexivity.
Qed.

Lemma minimize_result_keys_witness :
  dom (OptimizeResult.new
         [("x", PyArray origin); ("fun", PyFloat 2.5%float);
          ("status", PyInt 1)]%string)
  = ({["x"; "fun"; "status"]} : gset string) /\
  OptimizeResult.getattr
    (OptimizeResult.new
         [("x", PyArray origin); ("fun", PyFloat 2.5%float);
          ("status", PyInt 1)]%string) "success"
  = Raise (AttributeError "success").
Proof.
  pose proof (minimize_result_keys (direct_returning origin 2.5%float 1)
                constant_objective (call_with_bounds unit_interval) _ eq_refl)
    as (Hd & Hs & _).
  exact (conj Hd Hs).
Defined.

(** ** Failure messages (C3) *)

(** C3 fails on the code for the codes -5 and -6.  The table has five
    entries, not six: the code -5 raises with the two last messages run
    together, and the code -6 (inverted bounds) finds no entry, so that
    [minimize] ends in [IndexError] instead of the named failure.  The
    codes -1 to -4 raise their own message. *)
Theorem inverted_bounds_code_has_no_message :
  length ERROR_MESSAGES = 5%nat /\
  outcome (minimize (direct_returning origin 0%float (-4))
             constant_objective (call_with_bounds unit_interval))
  = Raise (Exception "Initialization failed") /\
  outcome (minimize (direct_returning origin 0%float (-5))
             constant_objective (call_with_bounds unit_interval))
  = Raise (Exception "maxf is too largeu[i] < l[i] for some i") /\
  tuple_getitem ERROR_MESSAGES (Z.abs (-6) - 1) = Raise IndexError /\
  minimize (direct_returning origin 0%float (-6))
    constant_objective (call_with_bounds unit_interval)
  = mk_run [PyInt (-6)] (Raise IndexError).
Proof. repeat split; reflexivity. Qed.

(** ** The infeasibility flag (C4) *)

(** C4 fails on the code.  The wrapper hands the engine whatever the
    objective returned as the value, paired with the constant flag 0: an
    objective that returns [(2.5, 1)], flagging its point as infeasible,
    reaches the engine as [((2.5, 1), 0)]. *)
Theorem objective_wrap_flag_is_constant :
  (forall func args x iidata ddata cdata n iisize idsize icsize,
     _objective_wrap func args x iidata ddata cdata n iisize idsize icsize
     = match func (x :: args) with
       | Return v => Return (PyTuple [v; PyInt 0])
       | Raise e => Raise e
       end) /\
  _objective_wrap infeasible_objective [] (PyArray origin)
    PyNone PyNone PyNone (PyInt 1) (PyInt 0) (PyInt 0) (PyInt 0)
  = Return (PyTuple [PyTuple [PyFloat 2.5%float; PyInt 1]; PyInt 0]).
Proof. split; reflexivity. Qed.

(** ** Success messages (C5) *)

(** C5 fails on the code in its last part.  The five success messages are
    pairwise different, but the fifth, like the fourth, speaks of the
    volume and of [volper]; no message of the table names [sigmaper] or
    the measure of the hyperrectangle. *)
Theorem fifth_success_message_names_volper :
  length SUCCESS_MESSAGES = 5%nat /\
  NoDup SUCCESS_MESSAGES /\
  tuple_getitem SUCCESS_MESSAGES 4
  = Return "The volume of the hyperrectangle with best function value found is smaller then volper"%string /\
  (exists m, tuple_getitem SUCCESS_MESSAGES 4 = Return m /\
             contains "volume" m = true /\
             contains "volper" m = true /\
             contains "sigmaper" m = false /\
             contains "measure" m = false) /\
  forallb (fun m => negb (contains "sigmaper" m)) SUCCESS_MESSAGES = true.
Proof.
  split; [reflexivity|]. split.
  - apply (bool_decide_unpack _). vm_compute. reflexivity.
  - split; [reflexivity|]. split; [|reflexivity].
    eexists. repeat split; reflexivity.
Qed.

(** ** The arguments that reach the engine (C6, C7, C8) *)

(** The three dummy arrays are always built. *)
Lemma direct_call_inv func kw a :
  direct_call func kw = Return a ->
  exists l u,
    bound_vectors (Kw.bounds kw) (Kw.nvar kw) = Return (l, u) /\
    a = DirectArgs.mk
          (_objective_wrap func (Kw.args kw))
          (default 1e-4%float (Kw.eps kw))
          (default 20000 (Kw.maxf kw))
          (default 6000 (Kw.maxT kw))
          l u
          (default 0 (Kw.algmethod kw))
          (default "DIRresults.txt"%string (Kw.logfilename kw))
          (default (-1e100)%float (Kw.fglobal kw))
          (default 0.01%float (Kw.fglper kw))
          (default (-1.0)%float (Kw.volper kw))
          (default (-1.0)%float (Kw.sigmaper kw))
          (mk_ndarray int32 [0%nat] [])
          (mk_ndarray float64 [0%nat] [])
          (mk_ndarray uint8 [0%nat; 40%nat] []).
Proof.
  unfold direct_call.
  destruct (bound_vectors (Kw.bounds kw) (Kw.nvar kw)) as [[l u]|e]; simpl;
    [|discriminate].
  intros [= <-]. exists l, u. split; reflexivity.
Qed.

Lemma direct_call_of_vectors func kw l u :
  bound_vectors (Kw.bounds kw) (Kw.nvar kw) = Return (l, u) ->
  exists a, direct_call func kw = Return a /\
            DirectArgs.l a = l /\ DirectArgs.u a = u.
Proof.
  intros H. unfold direct_call. rewrite H. simpl.
  eexists. split; [reflexivity|]. split; reflexivity.
Qed.

(** Cutting the row-major data of [n] pairs into [n] rows of width 2
    gives back the pairs. *)
Lemma blocks_of_pairs (pairs : list (float * float)) :
  blocks (length pairs) 2 (concat (map pair_row pairs)) = map pair_row pairs.
Proof.
  induction pairs as [|p pairs IH]; simpl; [reflexivity|].
  rewrite drop_0. f_equal. exact IH.
Qed.

(** Picking one entry of every row. *)
Lemma column_of_pairs (sel : float * float -> float) (k : nat)
    (pairs : list (float * float)) :
  (forall p, take 1 (drop k (pair_row p)) = [sel p]) ->
  concat (map (fun row => take 1 (drop k row)) (map pair_row pairs))
  = map sel pairs.
Proof.
  intros Hsel. induction pairs as [|p pairs IH]; simpl; [reflexivity|].
  rewrite Hsel, IH. reflexivity.
Qed.

(** [np.asarray(bounds)[:, 0]] and [np.asarray(bounds)[:, 1]] for a
    non-empty sequence of pairs. *)
Lemma take_column_asarray (p : float * float) (pairs : list (float * float)) :
  take_column (np_asarray (p :: pairs)) 0
  = Return (mk_ndarray float64 [length (p :: pairs)] (map fst (p :: pairs))) /\
  take_column (np_asarray (p :: pairs)) 1
  = Return (mk_ndarray float64 [length (p :: pairs)] (map snd (p :: pairs))).
Proof.
  unfold take_column, np_asarray.
  cbn [shape data arr_dtype Nat.ltb Nat.leb foldr Nat.mul Nat.add].
  change (fun q : float * float => [q.1; q.2]) with pair_row.
  rewrite (blocks_of_pairs (p :: pairs)).
  split; f_equal; f_equal.
  - apply (column_of_pairs fst 0). reflexivity.
  - apply (column_of_pairs snd 1). reflexivity.
Qed.

(** [np.zeros(n)] and [np.ones(n)] for an integer [n] that is not
    negative and whose array fits. *)
Lemma nbytes_int (dt : dtype) (n : Z) :
  0 <= n -> nbytes dt [n] = if n =? 0 then itemsize dt else n * itemsize dt.
Proof. intros _. unfold nbytes. simpl. reflexivity. Qed.

Lemma np_full_int (fill : float) (n : Z) (dt : dtype) :
  0 <= n ->
  n * itemsize dt <= NPY_MAX_INTP ->
  np_full fill (ShapeInt n) dt
  = Return (mk_ndarray dt [Z.to_nat n] (repeat fill (Z.to_nat n))).
Proof.
  intros Hn Hfit. unfold np_full.
  cbn [shape_dims existsb orb].
  apply Z.ltb_ge in Hn as Hn'. rewrite Hn'. cbn [orb].
  rewrite (nbytes_int dt n Hn).
  assert (Hsmall : (NPY_MAX_INTP <? (if n =? 0 then itemsize dt else n * itemsize dt))
                   = false).
  { apply Z.ltb_ge. destruct (Z.eqb_spec n 0); [|exact Hfit].
    destruct dt; unfold NPY_MAX_INTP; simpl; lia. }
  rewrite Hsmall. simpl. rewrite Nat.mul_1_r. reflexivity.
Qed.

(** What [np.zeros(n)] and [np.ones(n)] return when they return, and what
    they raise when they do not. *)
Lemma np_full_int_inv (fill : float) (n : Z) (dt : dtype) (a : ndarray) :
  np_full fill (ShapeInt n) dt = Return a ->
  0 <= n /\ n <= NPY_MAX_INTP /\
  a = mk_ndarray dt [Z.to_nat n] (repeat fill (Z.to_nat n)).
Proof.
  unfold np_full. cbn [shape_dims existsb orb].
  destruct (Z.ltb_spec n 0) as [Hneg|Hn]; cbn [orb]; [discriminate|].
  rewrite (nbytes_int dt n Hn).
  destruct (Z.ltb_spec NPY_MAX_INTP
              (if n =? 0 then itemsize dt else n * itemsize dt))
    as [Hbig|Hfit]; [discriminate|].
  intros [= <-]. split; [exact Hn|]. split.
  - destruct (Z.eqb_spec n 0) as [->|Hne]; [unfold NPY_MAX_INTP; lia|].
    destruct dt; simpl in Hfit; lia.
  - simpl. rewrite Nat.mul_1_r. reflexivity.
Qed.


(** Whether the array is created does not depend on the value that fills
    it. *)
Lemma np_full_raise_any_fill (f1 f2 : float) (s : shape_arg) (dt : dtype)
    (e : pyexc) :
  np_full f1 s dt = Raise e -> np_full f2 s dt = Raise e.
Proof.
  unfold np_full.
  destruct (existsb (fun n => n <? 0) (shape_dims s)); [auto|].
  destruct (NPY_MAX_INTP <? nbytes dt (shape_dims s)); [auto|].
  discriminate.
Qed.

Lemma np_full_out_of_range (fill : float) (n : Z) (dt : dtype) :
  n < 0 \/ NPY_MAX_INTP < n ->
  np_full fill (ShapeInt n) dt = Raise ValueError.
Proof.
  intros Hn. unfold np_full. cbn [shape_dims existsb orb].
  destruct (Z.ltb_spec n 0) as [Hneg|Hpos]; cbn [orb]; [reflexivity|].
  rewrite (nbytes_int dt n Hpos).
  assert (Hbig : (NPY_MAX_INTP <? (if n =? 0 then itemsize dt else n * itemsize dt))
                 = true).
  { apply Z.ltb_lt. destruct Hn as [Hn|Hn]; [lia|].
    destruct (Z.eqb_spec n 0) as [->|_]; [unfold NPY_MAX_INTP in Hn; lia|].
    destruct dt; simpl; lia. }
  rewrite Hbig. reflexivity.
Qed.

Lemma bound_vectors_pairs (p : float * float) (pairs : list (float * float))
    (nvar : option Z) :
  bound_vectors (Some (p :: pairs)) nvar
  = Return (mk_ndarray float64 [length (p :: pairs)] (map fst (p :: pairs)),
            mk_ndarray float64 [length (p :: pairs)] (map snd (p :: pairs))).
Proof.
  destruct (take_column_asarray p pairs) as [Hl Hu].
  unfold bound_vectors. rewrite Hl.
  change (take_column (np_asarray (p :: pairs)) 1
          ≫= (fun u => mret (mk_ndarray float64 [length (p :: pairs)]
                               (map fst (p :: pairs)), u))
          = Return (mk_ndarray float64 [length (p :: pairs)] (map fst (p :: pairs)),
                    mk_ndarray float64 [length (p :: pairs)] (map snd (p :: pairs)))).
  rewrite Hu. reflexivity.
Qed.

Lemma bound_vectors_nvar (n : Z) (l u : ndarray) :
  np_zeros (ShapeInt n) float64 = Return l ->
  np_ones (ShapeInt n) float64 = Return u ->
  bound_vectors None (Some n) = Return (l, u).
Proof.
  intros Hz Ho. unfold bound_vectors. cbv zeta.
  rewrite Hz. unfold mbind, result_bind. rewrite Ho. reflexivity.
Qed.

(** C6.  A keyword left out of the call reaches the engine with the
    default of the signature: [eps] 1e-4, [maxf] 20000, [maxT] 6000,
    [algmethod] 0 and [fglobal] -1e100, a finite value below every
    objective value of interest. *)
Theorem minimize_defaults func kw a :
  direct_call func kw = Return a ->
  (Kw.eps kw = None -> DirectArgs.eps a = 1e-4%float) /\
  (Kw.maxf kw = None -> DirectArgs.maxf a = 20000) /\
  (Kw.maxT kw = None -> DirectArgs.maxT a = 6000) /\
  (Kw.algmethod kw = None -> DirectArgs.algmethod a = 0) /\
  (Kw.fglobal kw = None ->
   DirectArgs.fglobal a = (-1e100)%float /\
   PrimFloat.ltb (DirectArgs.fglobal a) (-1e99)%float = true).
Proof.
  intros Ha. apply direct_call_inv in Ha as (l & u & _ & ->). simpl.
  split; [intros ->; reflexivity|].
  split; [intros ->; reflexivity|].
  split; [intros ->; reflexivity|].
  split; [intros ->; reflexivity|].
  intros ->. split; reflexivity.
Qed.

Lemma minimize_defaults_witness :
  exists a,
    direct_call constant_objective (call_with_bounds unit_interval) = Return a /\
    DirectArgs.eps a = 1e-4%float /\
    DirectArgs.maxf a = 20000 /\
    DirectArgs.maxT a = 6000 /\
    DirectArgs.algmethod a = 0 /\
    DirectArgs.fglobal a = (-1e100)%float.
Proof.
  eexists. split; [reflexivity|].
  destruct (minimize_defaults constant_objective
              (call_with_bounds unit_interval) _ eq_refl)
    as (He & Hf & Ht & Ha & Hg).
  exact (conj (He eq_refl) (conj (Hf eq_refl) (conj (Ht eq_refl)
           (conj (Ha eq_refl) (proj1 (Hg eq_refl)))))).
Defined.

(** C7, as stated, fails for the empty sequence of pairs: [np.asarray]
    makes a one-dimensional array of it, indexing its columns raises
    [IndexError], and no bound vector reaches the engine.  It also fails
    for a dimension [nvar] beyond the largest array size, such as [2^63]:
    [np.zeros] raises [ValueError] and the engine is not called. *)
Lemma empty_bounds_raise :
  direct_call constant_objective (call_with_bounds []) = Raise IndexError /\
  minimize (direct_returning origin 0%float 1)
    constant_objective (call_with_bounds [])
  = mk_run [] (Raise IndexError) /\
  ~ (exists a,
       direct_call constant_objective (call_with_bounds []) = Return a /\
       data (DirectArgs.l a) = map fst ([] : list (float * float)) /\
       data (DirectArgs.u a) = map snd ([] : list (float * float))) /\
  direct_call constant_objective (call_with_nvar 9223372036854775808)
  = Raise ValueError /\
  minimize (direct_returning origin 0%float 1)
    constant_objective (call_with_nvar 9223372036854775808)
  = mk_run [] (Raise ValueError).
Proof.
  split; [reflexivity|]. split; [reflexivity|].
  split; [|split; reflexivity].
  intros (a & Ha & _). discriminate Ha.
Qed.

(** C7, amended.  For a sequence of at least one pair, the engine receives
    as lower bounds the first components and as upper bounds the second
    components, in order.  With no bounds and a dimension [nvar] for which
    [np.zeros(nvar)] and [np.ones(nvar)] return arrays, the engine
    receives these two arrays, and they are [nvar] zeros and [nvar] ones;
    this needs an [nvar] that is not negative and not beyond the largest
    array size. *)
Theorem bounds_reach_engine func kw :
  (forall p pairs,
     Kw.bounds kw = Some (p :: pairs) ->
     exists a,
       direct_call func kw = Return a /\
       DirectArgs.l a
       = mk_ndarray float64 [length (p :: pairs)] (map fst (p :: pairs)) /\
       DirectArgs.u a
       = mk_ndarray float64 [length (p :: pairs)] (map snd (p :: pairs))) /\
  (forall n l u,
     Kw.bounds kw = None -> Kw.nvar kw = Some n ->
     np_zeros (ShapeInt n) float64 = Return l ->
     np_ones (ShapeInt n) float64 = Return u ->
     0 <= n <= NPY_MAX_INTP /\
     exists a,
       direct_call func kw = Return a /\
       DirectArgs.l a = l /\
       DirectArgs.u a = u /\
       DirectArgs.l a
       = mk_ndarray float64 [Z.to_nat n] (repeat 0%float (Z.to_nat n)) /\
       DirectArgs.u a
       = mk_ndarray float64 [Z.to_nat n] (repeat 1%float (Z.to_nat n))).
Proof.
  split.
  - intros p pairs Hb.
    destruct (direct_call_of_vectors func kw _ _
                ltac:(rewrite Hb; apply bound_vectors_pairs))
      as (a & Ha & Hla & Hua).
    exists a. rewrite Hla, Hua. auto.
  - intros n l u Hb Hv Hz Ho.
    destruct (np_full_int_inv _ _ _ _ Hz) as (Hn & Hmax & Hl).
    destruct (np_full_int_inv _ _ _ _ Ho) as (_ & _ & Hu).
    split; [split; assumption|].
    destruct (direct_call_of_vectors func kw l u
                ltac:(rewrite Hb, Hv; apply (bound_vectors_nvar n l u Hz Ho)))
      as (a & Ha & Hla & Hua).
    exists a. rewrite Hla, Hua. auto.
Qed.

Lemma bounds_reach_engine_witness :
  (exists a,
     direct_call constant_objective
       (call_with_bounds [(0%float, 1%float); ((-2.0)%float, 3.5%float)])
     = Return a /\
     DirectArgs.l a = mk_ndarray float64 [2%nat] [0%float; (-2.0)%float] /\
     DirectArgs.u a = mk_ndarray float64 [2%nat] [1%float; 3.5%float]) /\
  (exists a,
     direct_call constant_objective (call_with_nvar 2) = Return a /\
     DirectArgs.l a = mk_ndarray float64 [2%nat] [0%float; 0%float] /\
     DirectArgs.u a = mk_ndarray float64 [2%nat] [1%float; 1%float]).
Proof.
  split.
  - exact (proj1 (bounds_reach_engine constant_objective
                    (call_with_bounds [(0%float, 1%float); ((-2.0)%float, 3.5%float)]))
                 _ _ eq_refl).
  - destruct (proj2 (bounds_reach_engine constant_objective (call_with_nvar 2))
                2 (mk_ndarray float64 [2%nat] [0%float; 0%float])
                (mk_ndarray float64 [2%nat] [1%float; 1%float])
                eq_refl eq_refl eq_refl eq_refl)
      as (_ & a & Ha & _ & _ & Hl & Hu).
    exists a. auto.
Defined.

(** C8.  The callback that the engine receives calls the objective with
    the point followed by the [args] of the call of [minimize], whatever
    the seven other arguments of the callback are, and passes on what it
    returns or raises. *)
Theorem objective_receives_args func kw a :
  direct_call func kw = Return a ->
  forall x iidata ddata cdata n iisize idsize icsize,
    DirectArgs.fcn a x iidata ddata cdata n iisize idsize icsize
    = match func (x :: Kw.args kw) with
      | Return v => Return (PyTuple [v; PyInt 0])
      | Raise e => Raise e
      end.
Proof.
  intros Ha. apply direct_call_inv in Ha as (l & u & _ & ->).
  intros. reflexivity.
Qed.

Lemma objective_receives_args_witness :
  exists a,
    direct_call infeasible_objective
      (Kw.mk None (Some 1) [PyInt 7; PyStr "shift"] None None None None None
             None None None None None)
    = Return a /\
    DirectArgs.fcn a (PyArray origin) PyNone PyNone PyNone
      (PyInt 1) (PyInt 0) (PyInt 0) (PyInt 0)
    = match infeasible_objective [PyArray origin; PyInt 7; PyStr "shift"] with
      | Return v => Return (PyTuple [v; PyInt 0])
      | Raise e => Raise e
      end.
Proof.
  eexists. split; [reflexivity|].
  exact (objective_receives_args infeasible_objective
           (Kw.mk None (Some 1) [PyInt 7; PyStr "shift"] None None None None
                  None None None None None None)
           _ eq_refl (PyArray origin) PyNone PyNone PyNone
           (PyInt 1) (PyInt 0) (PyInt 0) (PyInt 0)).
Defined.

(** ** Attribute access on OptimizeResult (C9) *)

(** C9, as stated, fails for the names that ordinary lookup resolves: with
    an entry stored under [keys], reading [r.keys] gives the [dict] method
    and not the entry, and on an empty result it gives the method instead
    of raising [AttributeError]. *)
Lemma getattr_keys_is_the_method :
  dict_getitem result_with_keys_entry "keys" = Return (PyInt 1) /\
  OptimizeResult.getattr result_with_keys_entry "keys"
  = Return (PyBuiltin "keys") /\
  OptimizeResult.getattr result_with_keys_entry "keys"
  <> dict_getitem result_with_keys_entry "keys" /\
  OptimizeResult.getattr ∅ "keys" <> Raise (AttributeError "keys").
Proof.
  split; [reflexivity|]. split; [reflexivity|]. split; discriminate.
Qed.

(** C9, amended.  For a name that ordinary lookup does not resolve, the
    read [r.name] returns the entry [r[name]] when [name] is a stored key
    and raises [AttributeError], not [KeyError], when it is not.  For
    every name, the assignment [r.name = v] is the item assignment
    [r[name] = v] and the deletion [del r.name] is the item deletion
    [del r[name]]. *)
Theorem attribute_access (r : OptimizeResult.t) (name : string) :
  (name ∉ OptimizeResult.class_attributes ->
   (forall v, r !! name = Some v ->
              OptimizeResult.getattr r name = Return v /\
              OptimizeResult.getattr r name = dict_getitem r name) /\
   (r !! name = None ->
    OptimizeResult.getattr r name = Raise (AttributeError name) /\
    OptimizeResult.getattr r name <> Raise (KeyError name))) /\
  (forall v, OptimizeResult.setattr r name v = dict_setitem r name v) /\
  OptimizeResult.delattr r name = dict_delitem r name.
Proof.
  split; [|split; reflexivity].
  intros Hname. unfold OptimizeResult.getattr.
  rewrite (bool_decide_eq_false_2 _ Hname).
  unfold OptimizeResult.__getattr__, dict_getitem.
  split.
  - intros v ->. split; reflexivity.
  - intros ->. split; [reflexivity|discriminate].
Qed.

Lemma attribute_access_witness :
  OptimizeResult.getattr
    (OptimizeResult.new [("status", PyInt 1)]%string) "status"
  = Return (PyInt 1) /\
  OptimizeResult.getattr
    (OptimizeResult.new [("status", PyInt 1)]%string) "nfev"
  = Raise (AttributeError "nfev").
Proof.
  split.
  - refine (proj1 (proj1 (proj1 (attribute_access
                     (OptimizeResult.new [("status", PyInt 1)]%string) "status")
                     _)
                   (PyInt 1) eq_refl)).
    apply (bool_decide_eq_false_1 ("status" ∈ OptimizeResult.class_attributes)).
    reflexivity.
  - refine (proj1 (proj2 (proj1 (attribute_access
                     (OptimizeResult.new [("status", PyInt 1)]%string) "nfev")
                     _)
                   eq_refl)).
    apply (bool_decide_eq_false_1 ("nfev" ∈ OptimizeResult.class_attributes)).
    reflexivity.
Defined.

(** * Further properties of the module *)

(** ** What minimize prints and raises *)

Lemma finish_negative x fun_ ierror :
  ierror < 0 ->
  finish x fun_ ierror
  = mk_run [PyInt ierror]
      (msg ← tuple_getitem ERROR_MESSAGES (Z.abs ierror - 1);
       Raise (Exception msg)).
Proof. intros H. unfold finish. apply Z.ltb_lt in H. rewrite H. reflexivity. Qed.

Lemma finish_nonnegative x fun_ ierror :
  0 <= ierror ->
  finish x fun_ ierror
  = mk_run []
      (Return (OptimizeResult.new
                 [("x", PyArray x); ("fun", PyFloat fun_);
                  ("status", PyInt ierror)]%string)).
Proof. intros H. unfold finish. apply Z.ltb_ge in H. rewrite H. reflexivity. Qed.

(** The index [abs(ierror) - 1] of a negative status in a tuple. *)
Lemma tuple_getitem_of_status {A} (t : list A) (ierror : Z) :
  ierror < 0 ->
  tuple_getitem t (Z.abs ierror - 1)
  = match t !! Z.to_nat (- ierror - 1) with
    | Some a => Return a
    | None => Raise IndexError
    end.
Proof.
  intros H. unfold tuple_getitem.
  replace (Z.abs ierror - 1) with (- ierror - 1) by lia.
  destruct (Z.ltb_spec (- ierror - 1) 0) as [Hlt|Hge]; [lia|].
  destruct (Z.ltb_spec (- ierror - 1) 0); [lia|]. reflexivity.
Qed.

(** The line [print ierror] runs exactly when [direct] returned a negative
    status: then the status is printed, once; a call that returns a result
    has printed nothing; and whatever is printed is such a status. *)
Theorem minimize_prints_only_failures direct func kw :
  (forall a x fun_ ierror,
     direct_call func kw = Return a ->
     direct a = Return (x, fun_, ierror) ->
     ierror < 0 ->
     stdout (minimize direct func kw) = [PyInt ierror]) /\
  (forall r, outcome (minimize direct func kw) = Return r ->
             stdout (minimize direct func kw) = []) /\
  (forall v, v ∈ stdout (minimize direct func kw) ->
     exists a x fun_ ierror,
       direct_call func kw = Return a /\
       direct a = Return (x, fun_, ierror) /\
       ierror < 0 /\
       stdout (minimize direct func kw) = [PyInt ierror]).
Proof.
  split.
  { intros a x f ierror Ha Hd Hneg.
    rewrite (minimize_after_direct _ _ _ _ _ _ _ Ha Hd).
    rewrite (finish_negative _ _ _ Hneg). reflexivity. }
  unfold minimize.
  destruct (direct_call func kw) as [a|e]; simpl.
  2:{ split; [discriminate|]. intros v Hv. inversion Hv. }
  destruct (direct a) as [[[x f] ierror]|e] eqn:Hd; simpl.
  2:{ split; [discriminate|]. intros v Hv. inversion Hv. }
  destruct (Z.lt_ge_cases ierror 0) as [Hneg|Hpos].
  - rewrite (finish_negative _ _ _ Hneg); simpl. split.
    + destruct (tuple_getitem ERROR_MESSAGES (Z.abs ierror - 1)); discriminate.
    + intros v _. exists a, x, f, ierror. auto.
  - rewrite (finish_nonnegative _ _ _ Hpos); simpl. split; [reflexivity|].
    intros v Hv. inversion Hv.
Qed.

Lemma minimize_prints_only_failures_witness :
  stdout (minimize (direct_returning origin 0%float (-2))
            constant_objective (call_with_bounds unit_interval))
  = [PyInt (-2)] /\
  stdout (minimize (direct_returning origin 2.5%float 3)
            constant_objective (call_with_bounds unit_interval)) = [] /\
  (exists a x fun_ ierror,
     direct_call constant_objective (call_with_bounds unit_interval) = Return a /\
     direct_returning origin 0%float (-2) a = Return (x, fun_, ierror) /\
     ierror < 0 /\
     stdout (minimize (direct_returning origin 0%float (-2))
               constant_objective (call_with_bounds unit_interval))
     = [PyInt ierror]).
Proof.
  split; [|split].
  - apply (proj1 (minimize_prints_only_failures
                    (direct_returning origin 0%float (-2))
                    constant_objective (call_with_bounds unit_interval))
                 _ origin 0%float (-2) eq_refl eq_refl).
    reflexivity.
  - exact (proj1 (proj2 (minimize_prints_only_failures
                    (direct_returning origin 2.5%float 3)
                    constant_objective (call_with_bounds unit_interval)))
                 _ eq_refl).
  - apply (proj2 (proj2 (minimize_prints_only_failures
                    (direct_returning origin 0%float (-2))
                    constant_objective (call_with_bounds unit_interval)))
                 (PyInt (-2))).
    apply list_elem_of_here.
Defined.

(** A status from -5 to -1 raises [Exception] with the entry of
    [ERROR_MESSAGES] at position [-ierror - 1]. *)
Theorem minimize_failure_message direct func kw a x fun_ ierror :
  direct_call func kw = Return a ->
  direct a = Return (x, fun_, ierror) ->
  -5 <= ierror <= -1 ->
  exists msg,
    ERROR_MESSAGES !! Z.to_nat (- ierror - 1) = Some msg /\
    outcome (minimize direct func kw) = Raise (Exception msg).
Proof.
  intros Ha Hd Hi. rewrite (minimize_after_direct _ _ _ _ _ _ _ Ha Hd).
  rewrite finish_negative by lia. simpl.
  rewrite tuple_getitem_of_status by lia.
  assert (Hlt : (Z.to_nat (- ierror - 1) < length ERROR_MESSAGES)%nat)
    by (simpl; lia).
  apply lookup_lt_is_Some_2 in Hlt as [msg Hmsg].
  rewrite Hmsg. exists msg. split; reflexivity.
Qed.

Lemma minimize_failure_message_witness :
  exists msg,
    ERROR_MESSAGES !! Z.to_nat (- (-2) - 1) = Some msg /\
    outcome (minimize (direct_returning origin 0%float (-2))
               constant_objective (call_with_bounds unit_interval))
    = Raise (Exception msg).
Proof.
  apply (minimize_failure_message (direct_returning origin 0%float (-2))
           constant_objective (call_with_bounds unit_interval)
           _ origin 0%float (-2) eq_refl eq_refl).
  split; discriminate.
Defined.

(** A status below -5 has no entry in the table: [minimize] ends in
    [IndexError], after printing the status. *)
Theorem minimize_unlisted_status direct func kw a x fun_ ierror :
  direct_call func kw = Return a ->
  direct a = Return (x, fun_, ierror) ->
  ierror <= -6 ->
  minimize direct func kw = mk_run [PyInt ierror] (Raise IndexError).
Proof.
  intros Ha Hd Hi. rewrite (minimize_after_direct _ _ _ _ _ _ _ Ha Hd).
  rewrite finish_negative by lia.
  rewrite tuple_getitem_of_status by lia.
  rewrite (lookup_ge_None_2 ERROR_MESSAGES) by (simpl; lia).
  reflexivity.
Qed.

Lemma minimize_unlisted_status_witness :
  minimize (direct_returning origin 0%float (-9))
    constant_objective (call_with_bounds unit_interval)
  = mk_run [PyInt (-9)] (Raise IndexError).
Proof.
  apply (minimize_unlisted_status (direct_returning origin 0%float (-9))
           constant_objective (call_with_bounds unit_interval)
           _ origin 0%float (-9) eq_refl eq_refl).
  discriminate.
Defined.

Lemma finish_listed x fun_ ierror :
  -5 <= ierror <= -1 ->
  exists msg,
    ERROR_MESSAGES !! Z.to_nat (- ierror - 1) = Some msg /\
    outcome (finish x fun_ ierror) = Raise (Exception msg).
Proof.
  intros Hi. rewrite finish_negative by lia. simpl.
  rewrite tuple_getitem_of_status by lia.
  assert (Hlt : (Z.to_nat (- ierror - 1) < length ERROR_MESSAGES)%nat)
    by (simpl; lia).
  apply lookup_lt_is_Some_2 in Hlt as [msg Hmsg].
  rewrite Hmsg. exists msg. split; reflexivity.
Qed.

Lemma ERROR_MESSAGES_NoDup : NoDup ERROR_MESSAGES.
Proof. apply (bool_decide_unpack _). vm_compute. reflexivity. Qed.

(** Two different statuses from -5 to -1 never raise the same exception:
    the caller can tell them apart by the message alone. *)
Theorem failure_statuses_distinguishable
    direct1 func1 kw1 a1 x1 fun1 ierror1
    direct2 func2 kw2 a2 x2 fun2 ierror2 :
  direct_call func1 kw1 = Return a1 ->
  direct1 a1 = Return (x1, fun1, ierror1) ->
  direct_call func2 kw2 = Return a2 ->
  direct2 a2 = Return (x2, fun2, ierror2) ->
  -5 <= ierror1 <= -1 ->
  -5 <= ierror2 <= -1 ->
  ierror1 <> ierror2 ->
  outcome (minimize direct1 func1 kw1) <> outcome (minimize direct2 func2 kw2).
Proof.
  intros Ha1 Hd1 Ha2 Hd2 Hi1 Hi2 Hne.
  rewrite (minimize_after_direct _ _ _ _ _ _ _ Ha1 Hd1).
  rewrite (minimize_after_direct _ _ _ _ _ _ _ Ha2 Hd2).
  destruct (finish_listed x1 fun1 ierror1 Hi1) as (m1 & Hm1 & ->).
  destruct (finish_listed x2 fun2 ierror2 Hi2) as (m2 & Hm2 & ->).
  intros [= ->].
  pose proof (NoDup_lookup _ _ _ _ ERROR_MESSAGES_NoDup Hm1 Hm2) as Heq.
  lia.
Qed.

Lemma failure_statuses_distinguishable_witness :
  outcome (minimize (direct_returning origin 0%float (-2))
             constant_objective (call_with_bounds unit_interval))
  <> outcome (minimize (direct_returning origin 2.5%float (-5))
                infeasible_objective (call_with_nvar 1)).
Proof.
  apply (failure_statuses_distinguishable
           (direct_returning origin 0%float (-2)) constant_objective
           (call_with_bounds unit_interval) _ origin 0%float (-2)
           (direct_returning origin 2.5%float (-5)) infeasible_objective
           (call_with_nvar 1) _ origin 2.5%float (-5)
           eq_refl eq_refl eq_refl eq_refl);
    [split; discriminate | split; discriminate | discriminate].
Defined.

(** ** Failures before the engine runs *)

Lemma bound_vectors_raise bounds nvar e :
  bound_vectors bounds nvar = Raise e <->
  (bounds = Some [] /\ e = IndexError) \/
  (bounds = None /\
   (np_zeros (nvar_shape nvar) float64 = Raise e \/
    np_ones (nvar_shape nvar) float64 = Raise e)).
Proof.
  destruct bounds as [[|p pairs]|].
  - split.
    + intros [= <-]. left. auto.
    + intros [[_ ->]|[[=] _]]. reflexivity.
  - rewrite bound_vectors_pairs. split; [discriminate|].
    intros [[[=] _]|[[=] _]].
  - unfold bound_vectors. fold (nvar_shape nvar). cbv zeta.
    destruct (np_zeros (nvar_shape nvar) float64) as [l|e1] eqn:Hz.
    + destruct (np_ones (nvar_shape nvar) float64) as [u|e2] eqn:Ho.
      * split; [discriminate|].
        intros [[[=] _]|(_ & [[=]|[=]])].
      * apply (np_full_raise_any_fill _ 0%float) in Ho.
        unfold np_zeros in Hz. congruence.
    + split.
      * intros [= <-]. right. auto.
      * intros [[[=] _]|(_ & [[= <-]|Ho])]; [reflexivity|].
        apply (np_full_raise_any_fill _ 0%float) in Ho.
        unfold np_zeros in Hz. rewrite Hz in Ho. injection Ho as <-.
        reflexivity.
Qed.

Lemma direct_call_raise func kw e :
  direct_call func kw = Raise e <->
  (Kw.bounds kw = Some [] /\ e = IndexError) \/
  (Kw.bounds kw = None /\
   (np_zeros (nvar_shape (Kw.nvar kw)) float64 = Raise e \/
    np_ones (nvar_shape (Kw.nvar kw)) float64 = Raise e)).
Proof.
  rewrite <- bound_vectors_raise. unfold direct_call.
  destruct (bound_vectors (Kw.bounds kw) (Kw.nvar kw)) as [[l u]|e'].
  - split; discriminate.
  - split; intros [= ->]; reflexivity.
Qed.

(** [minimize] fails before calling [direct] exactly when [bounds] is an
    empty sequence ([IndexError]) or, without [bounds], when
    [np.zeros(nvar)] or [np.ones(nvar)] raises; they raise [ValueError]
    for a negative [nvar] and for one beyond the largest array dimension.
    The failure is then the same whatever the engine is, and nothing is
    printed. *)
Theorem minimize_fails_before_engine func kw e :
  (direct_call func kw = Raise e <->
   (Kw.bounds kw = Some [] /\ e = IndexError) \/
   (Kw.bounds kw = None /\
    (np_zeros (nvar_shape (Kw.nvar kw)) float64 = Raise e \/
     np_ones (nvar_shape (Kw.nvar kw)) float64 = Raise e))) /\
  (forall n, Kw.bounds kw = None -> Kw.nvar kw = Some n ->
             n < 0 \/ NPY_MAX_INTP < n ->
             direct_call func kw = Raise ValueError) /\
  (direct_call func kw = Raise e ->
   forall direct, minimize direct func kw = mk_run [] (Raise e)).
Proof.
  split; [apply direct_call_raise|]. split.
  - intros n Hb Hv Hn. apply direct_call_raise. right.
    split; [exact Hb|]. left. rewrite Hv. simpl.
    apply np_full_out_of_range. exact Hn.
  - intros H direct. unfold minimize. rewrite H. reflexivity.
Qed.

Lemma minimize_fails_before_engine_witness :
  direct_call constant_objective (call_with_nvar (-1)) = Raise ValueError /\
  direct_call constant_objective (call_with_nvar 9223372036854775808)
  = Raise ValueError /\
  minimize (direct_returning origin 0%float 1)
    constant_objective (call_with_nvar (-1))
  = mk_run [] (Raise ValueError).
Proof.
  assert (H : direct_call constant_objective (call_with_nvar (-1))
              = Raise ValueError).
  { apply (proj1 (proj2 (minimize_fails_before_engine constant_objective
                           (call_with_nvar (-1)) ValueError))
                 (-1) eq_refl eq_refl).
    left. reflexivity. }
  split; [exact H|]. split.
  - apply (proj1 (proj2 (minimize_fails_before_engine constant_objective
                           (call_with_nvar 9223372036854775808) ValueError))
                 9223372036854775808 eq_refl eq_refl).
    right. reflexivity.
  - exact (proj2 (proj2 (minimize_fails_before_engine constant_objective
                           (call_with_nvar (-1)) ValueError)) H _).
Defined.



(** ** Arguments that do or do not matter *)

(** [disp] is never used, and [nvar] is not used when [bounds] is given:
    changing them changes neither what [direct] receives nor what
    [minimize] does. *)
Theorem disp_and_nvar_ignored direct func bounds nvar nvar' args disp disp'
    eps maxf maxT algmethod fglobal fglper volper sigmaper logfilename :
  bounds <> None ->
  minimize direct func
    (Kw.mk bounds nvar args disp eps maxf maxT algmethod fglobal fglper
           volper sigmaper logfilename)
  = minimize direct func
      (Kw.mk bounds nvar' args disp' eps maxf maxT algmethod fglobal fglper
             volper sigmaper logfilename) /\
  minimize direct func
    (Kw.mk None nvar args disp eps maxf maxT algmethod fglobal fglper
           volper sigmaper logfilename)
  = minimize direct func
      (Kw.mk None nvar args disp' eps maxf maxT algmethod fglobal fglper
             volper sigmaper logfilename).
Proof.
  intros Hb. split; [|reflexivity].
  destruct bounds as [b|]; [reflexivity|contradiction].
Qed.

Lemma disp_and_nvar_ignored_witness :
  minimize (direct_returning origin 2.5%float 1) constant_objective
    (Kw.mk (Some unit_interval) (Some (-4)) [] (Some true) None None None
           None None None None None None)
  = minimize (direct_returning origin 2.5%float 1) constant_objective
      (Kw.mk (Some unit_interval) None [] None None None None
             None None None None None None).
Proof.
  apply (disp_and_nvar_ignored (direct_returning origin 2.5%float 1)
           constant_objective (Some unit_interval) (Some (-4)) None [] 
           (Some true) None None None None None None None None None None).
  discriminate.
Defined.

(** A keyword that the caller passes reaches [direct] unchanged. *)
Theorem explicit_keywords_forwarded func kw a :
  direct_call func kw = Return a ->
  (forall v, Kw.eps kw = Some v -> DirectArgs.eps a = v) /\
  (forall v, Kw.maxf kw = Some v -> DirectArgs.maxf a = v) /\
  (forall v, Kw.maxT kw = Some v -> DirectArgs.maxT a = v) /\
  (forall v, Kw.algmethod kw = Some v -> DirectArgs.algmethod a = v) /\
  (forall v, Kw.fglobal kw = Some v -> DirectArgs.fglobal a = v) /\
  (forall v, Kw.fglper kw = Some v -> DirectArgs.fglper a = v) /\
  (forall v, Kw.volper kw = Some v -> DirectArgs.volper a = v) /\
  (forall v, Kw.sigmaper kw = Some v -> DirectArgs.sigmaper a = v) /\
  (forall v, Kw.logfilename kw = Some v -> DirectArgs.logfilename a = v).
Proof.
  intros Ha. apply direct_call_inv in Ha as (l & u & _ & ->). simpl.
  repeat match goal with
         | |- _ /\ _ => split
         | |- forall v, _ = Some v -> _ => intros v ->; reflexivity
         end.
Qed.

Lemma explicit_keywords_forwarded_witness :
  exists a,
    direct_call constant_objective call_with_everything = Return a /\
    DirectArgs.eps a = 0.5%float /\
    DirectArgs.maxf a = 100 /\
    DirectArgs.logfilename a = "log.txt"%string.
Proof.
  eexists. split; [reflexivity|].
  destruct (explicit_keywords_forwarded constant_objective
              call_with_everything _ eq_refl)
    as (He & Hf & _ & _ & _ & _ & _ & _ & Hl).
  exact (conj (He _ eq_refl) (conj (Hf _ eq_refl) (Hl _ eq_refl))).
Defined.

Lemma np_full_inv (fill : float) (s : shape_arg) (dt : dtype) (a : ndarray) :
  np_full fill s dt = Return a ->
  a = mk_ndarray dt (map Z.to_nat (shape_dims s))
        (repeat fill (foldr Nat.mul 1%nat (map Z.to_nat (shape_dims s)))).
Proof.
  unfold np_full.
  destruct (existsb (fun n => n <? 0) (shape_dims s)); [discriminate|].
  destruct (NPY_MAX_INTP <? nbytes dt (shape_dims s)); [discriminate|].
  intros [= <-]. reflexivity.
Qed.

Lemma bound_vectors_omitted_inv (nvar : option Z) (l u : ndarray) :
  bound_vectors None nvar = Return (l, u) ->
  np_zeros (nvar_shape nvar) float64 = Return l /\
  np_ones (nvar_shape nvar) float64 = Return u.
Proof.
  unfold bound_vectors. fold (nvar_shape nvar). cbv zeta.
  destruct (np_zeros (nvar_shape nvar) float64) as [l'|e]; [|discriminate].
  unfold mbind, result_bind.
  destruct (np_ones (nvar_shape nvar) float64) as [u'|e]; [|discriminate].
  intros [= <- <-]. auto.
Qed.

(** The two bound vectors that [direct] receives always have the same
    shape, the same element type, and the same number of elements, which
    is the number their shape gives. *)
Theorem bound_vectors_agree func kw a :
  direct_call func kw = Return a ->
  shape (DirectArgs.l a) = shape (DirectArgs.u a) /\
  arr_dtype (DirectArgs.l a) = arr_dtype (DirectArgs.u a) /\
  length (data (DirectArgs.l a)) = length (data (DirectArgs.u a)) /\
  length (data (DirectArgs.l a)) = foldr Nat.mul 1%nat (shape (DirectArgs.l a)).
Proof.
  intros Ha. apply direct_call_inv in Ha as (l & u & Hlu & ->). simpl.
  destruct (Kw.bounds kw) as [[|p pairs]|].
  - discriminate Hlu.
  - rewrite bound_vectors_pairs in Hlu. injection Hlu as <- <-. simpl.
    rewrite !length_map. repeat split; lia.
  - apply bound_vectors_omitted_inv in Hlu as [Hz Ho].
    apply np_full_inv in Hz, Ho. subst l u. simpl.
    rewrite !repeat_length. repeat split.
Qed.

Lemma bound_vectors_agree_witness :
  exists a,
    direct_call constant_objective
      (call_with_bounds [(0%float, 1%float); (1%float, 2.5%float)]) = Return a /\
    shape (DirectArgs.l a) = shape (DirectArgs.u a) /\
    length (data (DirectArgs.l a)) = length (data (DirectArgs.u a)).
Proof.
  eexists. split; [reflexivity|].
  destruct (bound_vectors_agree constant_objective
              (call_with_bounds [(0%float, 1%float); (1%float, 2.5%float)])
              _ eq_refl)
    as (Hs & _ & Hd & _).
  exact (conj Hs Hd).
Defined.

(** The attributes [x], [fun] and [status] of a returned result read back
    what [direct] returned. *)
Theorem result_attributes_readable direct func kw a x fun_ ierror :
  direct_call func kw = Return a ->
  direct a = Return (x, fun_, ierror) ->
  0 <= ierror ->
  exists r,
    outcome (minimize direct func kw) = Return r /\
    OptimizeResult.getattr r "x" = Return (PyArray x) /\
    OptimizeResult.getattr r "fun" = Return (PyFloat fun_) /\
    OptimizeResult.getattr r "status" = Return (PyInt ierror).
Proof.
  intros Ha Hd Hi. rewrite (minimize_after_direct _ _ _ _ _ _ _ Ha Hd).
  rewrite (finish_nonnegative _ _ _ Hi). simpl.
  eexists. split; [reflexivity|].
  unfold OptimizeResult.getattr, OptimizeResult.__getattr__, dict_getitem.
  simpl. rewrite !new3_lookup. repeat split; reflexivity.
Qed.

Lemma result_attributes_readable_witness :
  exists r,
    outcome (minimize (direct_returning origin 2.5%float 2)
               constant_objective (call_with_bounds unit_interval)) = Return r /\
    OptimizeResult.getattr r "x" = Return (PyArray origin) /\
    OptimizeResult.getattr r "fun" = Return (PyFloat 2.5%float) /\
    OptimizeResult.getattr r "status" = Return (PyInt 2).
Proof.
  apply (result_attributes_readable (direct_returning origin 2.5%float 2)
           constant_objective (call_with_bounds unit_interval)
           _ origin 2.5%float 2 eq_refl eq_refl).
  discriminate.
Defined.

(** ** Attribute assignment, read and deletion together *)

Lemma getattr_unresolved (r : OptimizeResult.t) (name : string) :
  name ∉ OptimizeResult.class_attributes ->
  OptimizeResult.getattr r name
  = match r !! name with
    | Some v => Return v
    | None => Raise (AttributeError name)
    end.
Proof.
  intros Hname. unfold OptimizeResult.getattr.
  rewrite (bool_decide_eq_false_2 _ Hname).
  unfold OptimizeResult.__getattr__, dict_getitem.
  destruct (r !! name); reflexivity.
Qed.

Lemma getattr_resolved (r : OptimizeResult.t) (name : string) :
  name ∈ OptimizeResult.class_attributes ->
  OptimizeResult.getattr r name = Return (PyBuiltin name).
Proof.
  intros Hname. unfold OptimizeResult.getattr.
  rewrite (bool_decide_eq_true_2 _ Hname). reflexivity.
Qed.

(** After [r.name = v], reading [r.name] gives [v], for a name that
    ordinary lookup does not resolve; reading any other attribute gives
    what it gave before. *)
Theorem setattr_then_getattr (r : OptimizeResult.t) (name : string) (v : pyval) :
  (name ∉ OptimizeResult.class_attributes ->
   OptimizeResult.getattr (OptimizeResult.setattr r name v) name = Return v) /\
  (forall other, other <> name ->
     OptimizeResult.getattr (OptimizeResult.setattr r name v) other
     = OptimizeResult.getattr r other).
Proof.
  unfold OptimizeResult.setattr, OptimizeResult.__setattr__, dict_setitem.
  split.
  - intros Hname. rewrite (getattr_unresolved _ _ Hname).
    rewrite lookup_insert_eq. reflexivity.
  - intros other Hne.
    unfold OptimizeResult.getattr, OptimizeResult.__getattr__, dict_getitem.
    rewrite lookup_insert_ne by congruence. reflexivity.
Qed.

Lemma setattr_then_getattr_witness :
  OptimizeResult.getattr
    (OptimizeResult.setattr sample_result "message" (PyStr "done")) "message"
  = Return (PyStr "done").
Proof.
  apply (proj1 (setattr_then_getattr sample_result "message" (PyStr "done"))).
  apply (bool_decide_eq_false_1 ("message" ∈ OptimizeResult.class_attributes)).
  reflexivity.
Defined.

(** Assigning to a name that ordinary lookup resolves, such as [keys] or
    [items], stores an entry under that name, but reading the attribute
    still gives the attribute of the class. *)
Theorem setattr_shadowed_by_class (r : OptimizeResult.t) (name : string)
    (v : pyval) :
  name ∈ OptimizeResult.class_attributes ->
  dict_getitem (OptimizeResult.setattr r name v) name = Return v /\
  OptimizeResult.getattr (OptimizeResult.setattr r name v) name
  = Return (PyBuiltin name) /\
  OptimizeResult.getattr (OptimizeResult.setattr r name v) name
  = OptimizeResult.getattr r name.
Proof.
  intros Hname. rewrite !(getattr_resolved _ _ Hname).
  unfold OptimizeResult.setattr, OptimizeResult.__setattr__, dict_setitem,
    dict_getitem.
  rewrite lookup_insert_eq. auto.
Qed.

Lemma setattr_shadowed_by_class_witness :
  dict_getitem (OptimizeResult.setattr sample_result "items" (PyInt 3)) "items"
  = Return (PyInt 3) /\
  OptimizeResult.getattr (OptimizeResult.setattr sample_result "items" (PyInt 3))
    "items"
  = Return (PyBuiltin "items").
Proof.
  destruct (setattr_shadowed_by_class sample_result "items" (PyInt 3))
    as (Hi & Hg & _).
  - apply (bool_decide_eq_true_1 ("items" ∈ OptimizeResult.class_attributes)).
    reflexivity.
  - exact (conj Hi Hg).
Defined.

(** Reading an attribute raises nothing but [AttributeError] for that
    name, and only for a name that is neither stored nor resolved by
    ordinary lookup; [KeyError] never escapes. *)
Theorem getattr_raises_only_AttributeError (r : OptimizeResult.t)
    (name : string) (e : pyexc) :
  OptimizeResult.getattr r name = Raise e ->
  e = AttributeError name /\
  r !! name = None /\
  name ∉ OptimizeResult.class_attributes.
Proof.
  destruct (decide (name ∈ OptimizeResult.class_attributes)) as [Hin|Hnot].
  - rewrite (getattr_resolved _ _ Hin). discriminate.
  - rewrite (getattr_unresolved _ _ Hnot).
    destruct (r !! name); [discriminate|].
    intros [= <-]. auto.
Qed.

Lemma getattr_raises_only_AttributeError_witness :
  AttributeError "nit" = AttributeError "nit" /\
  sample_result !! "nit" = None /\
  "nit" ∉ OptimizeResult.class_attributes.
Proof.
  exact (getattr_raises_only_AttributeError sample_result "nit"
           (AttributeError "nit") eq_refl).
Defined.

(** Deleting an attribute that is not stored raises [KeyError], whatever
    the name.  Reading it raises [AttributeError] when ordinary lookup
    does not resolve the name, and gives the attribute of the class when
    it does. *)
Theorem delattr_missing_raises_KeyError (r : OptimizeResult.t) (name : string) :
  r !! name = None ->
  OptimizeResult.delattr r name = Raise (KeyError name) /\
  (name ∉ OptimizeResult.class_attributes ->
   OptimizeResult.getattr r name = Raise (AttributeError name)) /\
  (name ∈ OptimizeResult.class_attributes ->
   OptimizeResult.getattr r name = Return (PyBuiltin name)).
Proof.
  intros Hnone. split; [|split].
  - unfold OptimizeResult.delattr, OptimizeResult.__delattr__, dict_delitem.
    rewrite Hnone. reflexivity.
  - intros Hname. rewrite (getattr_unresolved _ _ Hname), Hnone. reflexivity.
  - intros Hname. apply getattr_resolved. exact Hname.
Qed.

Lemma delattr_missing_raises_KeyError_witness :
  OptimizeResult.delattr sample_result "nfev" = Raise (KeyError "nfev") /\
  OptimizeResult.getattr sample_result "nfev" = Raise (AttributeError "nfev") /\
  OptimizeResult.delattr sample_result "keys" = Raise (KeyError "keys") /\
  OptimizeResult.getattr sample_result "keys" = Return (PyBuiltin "keys").
Proof.
  destruct (delattr_missing_raises_KeyError sample_result "nfev" eq_refl)
    as (Hd & Hg & _).
  destruct (delattr_missing_raises_KeyError sample_result "keys" eq_refl)
    as (Hd' & _ & Hg').
  split; [exact Hd|]. split; [|split; [exact Hd'|]].
  - apply Hg.
    apply (bool_decide_eq_false_1 ("nfev" ∈ OptimizeResult.class_attributes)).
    reflexivity.
  - apply Hg'.
    apply (bool_decide_eq_true_1 ("keys" ∈ OptimizeResult.class_attributes)).
    reflexivity.
Defined.

(** Deleting a stored attribute removes that entry and no other; deleting
    it a second time raises [KeyError]. *)
Theorem delattr_stored (r : OptimizeResult.t) (name : string) (v : pyval) :
  r !! name = Some v ->
  exists r',
    OptimizeResult.delattr r name = Return r' /\
    r' !! name = None /\
    (forall other, other <> name -> r' !! other = r !! other) /\
    OptimizeResult.delattr r' name = Raise (KeyError name).
Proof.
  intros Hv.
  unfold OptimizeResult.delattr, OptimizeResult.__delattr__, dict_delitem.
  rewrite Hv. exists (delete name r).
  rewrite lookup_delete_eq. repeat split.
  intros other Hne. rewrite lookup_delete_ne by congruence. reflexivity.
Qed.

Lemma delattr_stored_witness :
  exists r',
    OptimizeResult.delattr sample_result "status" = Return r' /\
    r' !! "status" = None /\
    (forall other, other <> "status"%string -> r' !! other = sample_result !! other) /\
    OptimizeResult.delattr r' "status" = Raise (KeyError "status").
Proof.
  exact (delattr_stored sample_result "status" (PyStr "ok") eq_refl).
Defined.

(** Setting a new attribute and deleting it again gives back the result
    as it was. *)
Theorem setattr_then_delattr (r : OptimizeResult.t) (name : string) (v : pyval) :
  r !! name = None ->
  OptimizeResult.delattr (OptimizeResult.setattr r name v) name = Return r.
Proof.
  intros Hnone.
  unfold OptimizeResult.delattr, OptimizeResult.__delattr__, dict_delitem,
    OptimizeResult.setattr, OptimizeResult.__setattr__, dict_setitem.
  rewrite lookup_insert_eq, delete_insert_eq, delete_id by exact Hnone.
  reflexivity.
Qed.

Lemma setattr_then_delattr_witness :
  OptimizeResult.delattr
    (OptimizeResult.setattr sample_result "nfev" (PyInt 12)) "nfev"
  = Return sample_result.
Proof.
  exact (setattr_then_delattr sample_result "nfev" (PyInt 12) eq_refl).
Defined.

(** ** The constructor *)

Lemma foldl_setitem (kwargs : list (string * pyval)) (d : gmap string pyval) :
  foldl (fun d kv => dict_setitem d kv.1 kv.2) d kwargs
  = list_to_map (reverse kwargs) ∪ d.
Proof.
  revert d. induction kwargs as [|[k v] kwargs IH]; intros d; simpl.
  - rewrite (left_id_L ∅ (∪)). reflexivity.
  - rewrite IH, reverse_cons, list_to_map_app. simpl.
    unfold dict_setitem. rewrite <- (assoc_L (∪)).
    rewrite <- insert_union_l, (left_id_L ∅ (∪)). reflexivity.
Qed.

(** [OptimizeResult(k1=v1, ..., kn=vn)], with keyword names that differ
    from one another as Python requires, stores exactly the given entries:
    [r[k]] is [v] if and only if [k=v] is among the keywords, and the keys
    are the keyword names. *)
Theorem new_stores_the_keywords (kwargs : list (string * pyval)) :
  NoDup kwargs.*1 ->
  (forall k v, OptimizeResult.new kwargs !! k = Some v <-> (k, v) ∈ kwargs) /\
  dom (OptimizeResult.new kwargs) = (list_to_set kwargs.*1 : gset string) /\
  size (OptimizeResult.new kwargs) = length kwargs.
Proof.
  intros Hnd. unfold OptimizeResult.new.
  rewrite foldl_setitem, (right_id_L ∅ (∪)).
  assert (Hnd' : NoDup (reverse kwargs).*1)
    by (rewrite fmap_reverse, reverse_Permutation; exact Hnd).
  split; [|split].
  - intros k v. rewrite <- (elem_of_list_to_map _ _ _ Hnd').
    rewrite elem_of_reverse. reflexivity.
  - rewrite dom_list_to_map_L, fmap_reverse.
    apply set_eq. intros k. rewrite !elem_of_list_to_set, elem_of_reverse.
    reflexivity.
  - rewrite <- length_map_to_list.
    rewrite (map_to_list_to_map _ Hnd'), length_reverse. reflexivity.
Qed.

Lemma new_stores_the_keywords_witness :
  sample_result !! "status" = Some (PyStr "ok") /\
  size sample_result = 2%nat.
Proof.
  destruct (new_stores_the_keywords
              [("x", PyNone); ("status", PyStr "ok")]%string)
    as (Hl & _ & Hs).
  - apply (bool_decide_unpack _). vm_compute. reflexivity.
  - split; [|exact Hs].
    apply Hl. apply list_elem_of_further, list_elem_of_here.
Defined.

(** ** The printed form (lines 98-104) *)

Lemma foldl_max_le_start (x : nat) (rest : list nat) :
  (x <= foldl Nat.max x rest)%nat.
Proof.
  revert x. induction rest as [|y rest IH]; intros x; simpl; [lia|].
  specialize (IH (Nat.max x y)). lia.
Qed.

Lemma foldl_max_ge (x : nat) (rest : list nat) (y : nat) :
  y ∈ x :: rest -> (y <= foldl Nat.max x rest)%nat.
Proof.
  revert x. induction rest as [|z rest IH]; intros x Hy; simpl.
  - apply list_elem_of_singleton in Hy. lia.
  - pose proof (foldl_max_le_start (Nat.max x z) rest) as Hstart.
    apply elem_of_cons in Hy as [->|Hy]; [lia|].
    apply elem_of_cons in Hy as [->|Hy]; [lia|].
    apply IH. apply list_elem_of_further. exact Hy.
Qed.

Lemma foldl_max_in (x : nat) (rest : list nat) :
  foldl Nat.max x rest ∈ x :: rest.
Proof.
  revert x. induction rest as [|z rest IH]; intros x; simpl.
  - apply list_elem_of_here.
  - specialize (IH (Nat.max x z)).
    apply elem_of_cons in IH as [Heq|Hin].
    + rewrite Heq. destruct (Nat.max_spec x z) as [[_ ->]|[_ ->]].
      * apply list_elem_of_further, list_elem_of_here.
      * apply list_elem_of_here.
    + apply list_elem_of_further, list_elem_of_further. exact Hin.
Qed.

(** The printed form of a result with at least one entry. *)
Lemma repr_of_items items repr_value (r : OptimizeResult.t) kv rest :
  items r = kv :: rest ->
  OptimizeResult.__repr__ items repr_value r
  = Return (str_join newline
              (map (OptimizeResult.repr_line repr_value
                      (foldl Nat.max (String.length kv.1)
                         (map String.length rest.*1) + 1))
                   (items r))).
Proof.
  intros Hitems. unfold OptimizeResult.__repr__. rewrite Hitems. reflexivity.
Qed.

Lemma items_nonempty items (r : OptimizeResult.t) :
  items r ≡ₚ map_to_list r -> r <> ∅ ->
  exists kv rest, items r = kv :: rest.
Proof.
  intros Hperm Hne. destruct (items r) as [|kv rest] eqn:Hitems; [|eauto].
  exfalso. apply Hne. apply map_to_list_empty_iff.
  symmetry in Hperm. apply Permutation_nil_r in Hperm. exact Hperm.
Qed.

Lemma join_starts_with (sep : string) (c : Ascii.ascii) (s : string)
    (rest : list string) :
  exists t, str_join sep (String c s :: rest) = String c t.
Proof. destruct rest; simpl; eauto. Qed.

(** For a result with entries, [__repr__] returns (the guard keeps [max]
    away from the empty list) and joins one line per entry with line
    feeds; every line is the key, padded on the left
    with at least one space so that all keys end in the same column (one
    more than the longest key), then a colon, a space and the [repr] of
    the value. *)
Theorem repr_layout items repr_value (r : OptimizeResult.t) :
  items r ≡ₚ map_to_list r ->
  r <> ∅ ->
  exists m lines,
    OptimizeResult.__repr__ items repr_value r
    = Return (str_join newline lines) /\
    length lines = size r /\
    (exists kv, kv ∈ items r /\ S (String.length kv.1) = m) /\
    Forall2 (fun line kv =>
               r !! kv.1 = Some kv.2 /\
               exists pad,
                 (1 <= pad)%nat /\
                 (pad + String.length kv.1 = m)%nat /\
                 line = (spaces pad +:+ kv.1) +:+ ": " +:+ repr_value kv.2)
            lines (items r).
Proof.
  intros Hperm Hne.
  destruct (items_nonempty items r Hperm Hne) as (kv & rest & Hitems).
  set (longest := foldl Nat.max (String.length kv.1)
                    (map String.length rest.*1)).
  exists (longest + 1)%nat,
         (map (OptimizeResult.repr_line repr_value (longest + 1)) (items r)).
  split; [exact (repr_of_items items repr_value r kv rest Hitems)|].
  split; [rewrite length_map, Hperm; apply length_map_to_list|].
  assert (Hkeys : map String.length (items r).*1
                  = String.length kv.1 :: map String.length rest.*1)
    by (rewrite Hitems; reflexivity).
  split.
  - pose proof (foldl_max_in (String.length kv.1)
                  (map String.length rest.*1)) as Hin.
    fold longest in Hin. rewrite <- Hkeys in Hin.
    apply list_elem_of_fmap in Hin as (k & Hlen & Hk).
    apply list_elem_of_fmap in Hk as (kv' & -> & Hkv').
    exists kv'. split; [exact Hkv'|]. lia.
  - apply Forall2_fmap_l, Forall_Forall2_diag, Forall_forall.
    intros [k v] Hkv. simpl. split.
    + apply elem_of_map_to_list. rewrite <- Hperm. exact Hkv.
    + assert (Hle : (String.length k <= longest)%nat).
      { apply foldl_max_ge. rewrite <- Hkeys.
        apply list_elem_of_fmap. exists k. split; [reflexivity|].
        apply list_elem_of_fmap. exists (k, v). split; [reflexivity|exact Hkv]. }
      exists (longest + 1 - String.length k)%nat.
      split; [lia|]. split; [lia|]. reflexivity.
Qed.

Lemma repr_layout_witness :
  exists m lines,
    OptimizeResult.__repr__ gmap_items sample_repr sample_result
    = Return (str_join newline lines) /\
    length lines = size sample_result /\
    (exists kv, kv ∈ gmap_items sample_result /\ S (String.length kv.1) = m) /\
    Forall2 (fun line kv =>
               sample_result !! kv.1 = Some kv.2 /\
               exists pad,
                 (1 <= pad)%nat /\
                 (pad + String.length kv.1 = m)%nat /\
                 line = (spaces pad +:+ kv.1) +:+ ": " +:+ sample_repr kv.2)
            lines (gmap_items sample_result).
Proof.
  apply (repr_layout gmap_items sample_repr sample_result).
  - reflexivity.
  - intros H. apply (f_equal (fun m : gmap string pyval => m !! "x")) in H.
    discriminate H.
Defined.

Lemma repr_line_starts_with_space repr_value (m : nat) (kv : string * pyval) :
  (String.length kv.1 < m)%nat ->
  exists t, OptimizeResult.repr_line repr_value m kv
            = String (Ascii.ascii_of_nat 32) t.
Proof.
  intros Hlt. unfold OptimizeResult.repr_line, rjust.
  destruct (m - String.length kv.1)%nat as [|n] eqn:Hn; [lia|].
  simpl. eauto.
Qed.

(** The printed form is [OptimizeResult()] exactly for a result without
    entries. *)
Theorem repr_of_empty items repr_value (r : OptimizeResult.t) :
  items r ≡ₚ map_to_list r ->
  OptimizeResult.__repr__ items repr_value r = Return "OptimizeResult()"%string
  <-> r = ∅.
Proof.
  intros Hperm. split.
  - intros Hrepr. destruct (decide (r = ∅)) as [|Hne]; [assumption|exfalso].
    destruct (items_nonempty items r Hperm Hne) as (kv & rest & Hitems).
    rewrite (repr_of_items items repr_value r kv rest Hitems) in Hrepr.
    rewrite Hitems in Hrepr.
    set (m := (foldl Nat.max (String.length kv.1)
                 (map String.length rest.*1) + 1)%nat) in Hrepr.
    change (map (OptimizeResult.repr_line repr_value m) (kv :: rest))
      with (OptimizeResult.repr_line repr_value m kv
            :: map (OptimizeResult.repr_line repr_value m) rest) in Hrepr.
    destruct (repr_line_starts_with_space repr_value m kv) as [t Ht].
    { pose proof (foldl_max_le_start (String.length kv.1)
                    (map String.length rest.*1)).
      unfold m. lia. }
    rewrite Ht in Hrepr.
    destruct (join_starts_with newline (Ascii.ascii_of_nat 32) t
                (map (OptimizeResult.repr_line repr_value m) rest))
      as [t' Ht'].
    rewrite Ht' in Hrepr. discriminate Hrepr.
  - intros ->. unfold OptimizeResult.__repr__.
    rewrite map_to_list_empty in Hperm.
    apply Permutation_nil_r in Hperm. rewrite Hperm. reflexivity.
Qed.

Lemma repr_of_empty_witness :
  OptimizeResult.__repr__ gmap_items sample_repr ∅
  = Return "OptimizeResult()"%string.
Proof.
  apply (repr_of_empty gmap_items sample_repr ∅); reflexivity.
Defined.
